(** * klipper_dynamic_fan: [dynamic_temperature_fan.py]

    A shallow embedding of the Klipper extra [dynamic_temperature_fan.py]
    (classes [DynamicTemperatureFan] and [ControlBangBang]) and the
    properties of its rate limiter, setters and bang-bang control law.

    Python floats are IEEE 754 binary64 values: they are modelled by the
    primitive floats of the prover, so every definition evaluates exactly as
    the interpreter does (rounding, signed zeros, NaN and infinities
    included).  Python objects are records of the attributes assigned in
    [__init__]; a method is a computation that threads the objects and may
    raise, and what it wrote before raising stays written. *)

From Stdlib Require Import ZArith Bool List String Floats Lia.
Import ListNotations.

(** ** Binary64 comparisons as Python writes them *)

Module F64.

Local Open Scope float_scope.

(** Python's [x > y] and [x >= y] are [y < x] and [y <= x]. *)
Definition gtb (x y : float) : bool := y <? x.
Definition geb (x y : float) : bool := y <=? x.

(** Truth value of a float: [bool(x)] is [x != 0.0] (NaN is true, -0.0 false). *)
Definition truthy (x : float) : bool := negb (x =? 0).

(** [x] is a number (not NaN) exactly when [x <= x]. *)
Definition is_num (x : float) : bool := x <=? x.

(** Zero, subnormal or normal: neither NaN nor an infinity. *)
Definition finite_or_zero (s : spec_float) : Prop :=
  match s with
  | S754_zero _ | S754_finite _ _ _ => True
  | _ => False
  end.

End F64.

(** ** Python objects, exceptions and the method monad *)

Local Open Scope string_scope.
Local Open Scope float_scope.

(* Decimal literals are rounded to the nearest binary64, as Python reads them. *)
Set Warnings "-inexact-float".

Inductive exn : Type :=
| CommandError (msg : string) (args : list float)
    (* [self.printer.command_error(msg % args)] and range errors of [gcmd] *)
| AttributeError (cls attr : string)
| NameError (name : string)
| ZeroDivisionError.

Inductive outcome (A : Type) : Type :=
| Return (a : A)
| Raise (e : exn).
Arguments Return {A} a.
Arguments Raise {A} e.

(** The attributes [DynamicTemperatureFan.__init__] assigns (lines 16-47).
    [name] is not modelled; [printer], [fan], [sensor] and [control] are
    references to other objects, see [objref]. *)
Record DynamicTemperatureFan : Type := mkDynamicTemperatureFan {
  min_temp : float;
  max_temp : float;
  speed_delay : float;
  max_speed_conf : float;
  max_speed : float;
  min_speed_conf : float;
  min_speed : float;
  ramp_down_conf : bool;
  ramp_down : bool;
  enable : bool;
  last_temp : float;
  last_temp_time : float;
  target_temp_conf : float;
  target_temp : float;
  next_speed_time : float;
  last_speed_value : float
}.

(** The attributes [ControlBangBang.__init__] assigns (lines 204-206);
    [temperature_fan] is a reference. *)
Record ControlBangBang : Type := mkControlBangBang {
  max_delta : float;
  heating : bool
}.

(** The objects a method can reach.  [fan_calls] records the calls
    [fan.Fan.set_speed(print_time, value)] received by the actuator, oldest
    first: the actuator itself is Klipper's, outside this repository. *)
Record World : Type := mkWorld {
  this : DynamicTemperatureFan;
  control : ControlBangBang;
  fan_calls : list (float * float)
}.

Inductive objref : Type :=
| ThePrinter | TheFan | TheSensor | TheControl | TheTemperatureFan.

Definition M (A : Type) : Type := World -> World * outcome A.

Definition ret {A} (a : A) : M A := fun w => (w, Return a).
Definition raise {A} (e : exn) : M A := fun w => (w, Raise e).
Definition bind {A B} (m : M A) (k : A -> M B) : M B :=
  fun w => match m w with
           | (w', Return a) => k a w'
           | (w', Raise e) => (w', Raise e)
           end.

Declare Scope py_scope.
Delimit Scope py_scope with py.
Notation "x <- m ;; k" := (bind m (fun x => k))
  (at level 61, m at next level, right associativity) : py_scope.
Notation "m ;; k" := (bind m (fun _ => k))
  (at level 61, right associativity) : py_scope.
Notation "' p <- m ;; k" := (bind m (fun x => match x with p => k end))
  (at level 61, p pattern, m at next level, right associativity) : py_scope.
Local Open Scope py_scope.

(** *** Attribute and name lookup *)

Fixpoint assoc {V} (a : string) (d : list (string * V)) : option V :=
  match d with
  | [] => None
  | (k, v) :: d' => if String.eqb a k then Some v else assoc a d'
  end.

Definition lookup {V} (e : exn) (a : string) (d : list (string * V)) : M V :=
  match assoc a d with
  | Some v => ret v
  | None => raise e
  end.

(** Instance dictionary of a [DynamicTemperatureFan], by type of value. *)
Definition self_floats (o : DynamicTemperatureFan) : list (string * float) :=
  [ ("min_temp", min_temp o); ("max_temp", max_temp o);
    ("speed_delay", speed_delay o);
    ("max_speed_conf", max_speed_conf o); ("max_speed", max_speed o);
    ("min_speed_conf", min_speed_conf o); ("min_speed", min_speed o);
    ("last_temp", last_temp o); ("last_temp_time", last_temp_time o);
    ("target_temp_conf", target_temp_conf o); ("target_temp", target_temp o);
    ("next_speed_time", next_speed_time o);
    ("last_speed_value", last_speed_value o) ].

Definition self_bools (o : DynamicTemperatureFan) : list (string * bool) :=
  [ ("ramp_down_conf", ramp_down_conf o); ("ramp_down", ramp_down o);
    ("enable", enable o) ].

Definition self_objects : list (string * objref) :=
  [ ("printer", ThePrinter); ("fan", TheFan); ("sensor", TheSensor);
    ("control", TheControl) ].

(** Instance dictionary of a [ControlBangBang]. *)
Definition control_floats (c : ControlBangBang) : list (string * float) :=
  [ ("max_delta", max_delta c) ].

Definition control_bools (c : ControlBangBang) : list (string * bool) :=
  [ ("heating", heating c) ].

Definition control_objects : list (string * objref) :=
  [ ("temperature_fan", TheTemperatureFan) ].

Definition DTF := "DynamicTemperatureFan".
Definition CBB := "ControlBangBang".

(** [self.a] read inside a method of [DynamicTemperatureFan]. *)
Definition self_float (a : string) : M float :=
  fun w => lookup (AttributeError DTF a) a (self_floats (this w)) w.
Definition self_bool (a : string) : M bool :=
  fun w => lookup (AttributeError DTF a) a (self_bools (this w)) w.
Definition self_object (a : string) : M objref :=
  lookup (AttributeError DTF a) a self_objects.

(** [self.a] read inside a method of [ControlBangBang]. *)
Definition control_float (a : string) : M float :=
  fun w => lookup (AttributeError CBB a) a (control_floats (control w)) w.
Definition control_bool (a : string) : M bool :=
  fun w => lookup (AttributeError CBB a) a (control_bools (control w)) w.
Definition control_object (a : string) : M objref :=
  lookup (AttributeError CBB a) a control_objects.

(** Module-level float constants (lines 8-11). *)
Definition KELVIN_TO_CELSIUS : float := -273.15.
Definition MAX_FAN_TIME : float := 5.0.
Definition AMBIENT_TEMP : float := 25.0.
Definition PID_PARAM_BASE : float := 255.0.

Definition module_globals : list (string * float) :=
  [ ("KELVIN_TO_CELSIUS", KELVIN_TO_CELSIUS); ("MAX_FAN_TIME", MAX_FAN_TIME);
    ("AMBIENT_TEMP", AMBIENT_TEMP); ("PID_PARAM_BASE", PID_PARAM_BASE) ].

(** A bare name read inside a function whose float-valued locals are
    [locals]: local scope, then module scope, else [NameError]. *)
Definition name (locals : list (string * float)) (n : string) : M float :=
  lookup (NameError n) n (locals ++ module_globals).

(** *** Attribute assignment *)

Definition assign_this (f : DynamicTemperatureFan -> DynamicTemperatureFan) : M unit :=
  fun w => (mkWorld (f (this w)) (control w) (fan_calls w), Return tt).

Definition assign_control (f : ControlBangBang -> ControlBangBang) : M unit :=
  fun w => (mkWorld (this w) (f (control w)) (fan_calls w), Return tt).

Definition with_target_temp (v : float) (o : DynamicTemperatureFan) :=
  mkDynamicTemperatureFan (min_temp o) (max_temp o) (speed_delay o)
    (max_speed_conf o) (max_speed o) (min_speed_conf o) (min_speed o)
    (ramp_down_conf o) (ramp_down o) (enable o) (last_temp o)
    (last_temp_time o) (target_temp_conf o) v (next_speed_time o)
    (last_speed_value o).

Definition with_min_speed (v : float) (o : DynamicTemperatureFan) :=
  mkDynamicTemperatureFan (min_temp o) (max_temp o) (speed_delay o)
    (max_speed_conf o) (max_speed o) (min_speed_conf o) v
    (ramp_down_conf o) (ramp_down o) (enable o) (last_temp o)
    (last_temp_time o) (target_temp_conf o) (target_temp o)
    (next_speed_time o) (last_speed_value o).

Definition with_max_speed (v : float) (o : DynamicTemperatureFan) :=
  mkDynamicTemperatureFan (min_temp o) (max_temp o) (speed_delay o)
    (max_speed_conf o) v (min_speed_conf o) (min_speed o)
    (ramp_down_conf o) (ramp_down o) (enable o) (last_temp o)
    (last_temp_time o) (target_temp_conf o) (target_temp o)
    (next_speed_time o) (last_speed_value o).

Definition with_enable (v : bool) (o : DynamicTemperatureFan) :=
  mkDynamicTemperatureFan (min_temp o) (max_temp o) (speed_delay o)
    (max_speed_conf o) (max_speed o) (min_speed_conf o) (min_speed o)
    (ramp_down_conf o) (ramp_down o) v (last_temp o)
    (last_temp_time o) (target_temp_conf o) (target_temp o)
    (next_speed_time o) (last_speed_value o).

Definition with_last_temp (v : float) (o : DynamicTemperatureFan) :=
  mkDynamicTemperatureFan (min_temp o) (max_temp o) (speed_delay o)
    (max_speed_conf o) (max_speed o) (min_speed_conf o) (min_speed o)
    (ramp_down_conf o) (ramp_down o) (enable o) v
    (last_temp_time o) (target_temp_conf o) (target_temp o)
    (next_speed_time o) (last_speed_value o).

Definition with_next_speed_time (v : float) (o : DynamicTemperatureFan) :=
  mkDynamicTemperatureFan (min_temp o) (max_temp o) (speed_delay o)
    (max_speed_conf o) (max_speed o) (min_speed_conf o) (min_speed o)
    (ramp_down_conf o) (ramp_down o) (enable o) (last_temp o)
    (last_temp_time o) (target_temp_conf o) (target_temp o)
    v (last_speed_value o).

Definition with_last_speed_value (v : float) (o : DynamicTemperatureFan) :=
  mkDynamicTemperatureFan (min_temp o) (max_temp o) (speed_delay o)
    (max_speed_conf o) (max_speed o) (min_speed_conf o) (min_speed o)
    (ramp_down_conf o) (ramp_down o) (enable o) (last_temp o)
    (last_temp_time o) (target_temp_conf o) (target_temp o)
    (next_speed_time o) v.

Definition with_heating (v : bool) (c : ControlBangBang) :=
  mkControlBangBang (max_delta c) v.

(** *** Operators *)

(** Python's float [/]: a zero divisor (0.0 or -0.0) raises. *)
Definition truediv (x y : float) : M float :=
  if y =? 0 then raise ZeroDivisionError else ret (x / y).

(** [fan.Fan.set_speed(print_time, value)], the actuator interface. *)
Definition Fan_set_speed (print_time value : float) : M unit :=
  fun w => (mkWorld (this w) (control w) (fan_calls w ++ [(print_time, value)]),
            Return tt).

(** ** class DynamicTemperatureFan *)

(** [set_speed(self, read_time, value)], lines 64-79. *)
Definition set_speed (read_time value : float) : M unit :=
  value <- (if value <=? 0.0 then ret 0.0
            else
              m <- self_float "min_speed" ;;
              if value <? m then self_float "min_speed" else ret value) ;;
  t <- self_float "target_temp" ;;
  value <- (if t <=? 0.0 then ret 0.0 else ret value) ;;
  n <- self_float "next_speed_time" ;;
  held <- (if read_time <? n then ret true
           else
             l <- self_float "last_speed_value" ;;
             ret (negb (F64.truthy l))) ;;
  suppress <- (if held
               then
                 l <- self_float "last_speed_value" ;;
                 ret (abs (value - l) <? 0.05)
               else ret false) ;;
  if suppress : bool then
    (* No significant change in value - can suppress update *)
    ret tt
  else
    d <- self_float "speed_delay" ;;
    let speed_time := read_time + d in
    assign_this (with_next_speed_time (speed_time + 0.75 * MAX_FAN_TIME)) ;;
    assign_this (with_last_speed_value value) ;;
    _ <- self_object "fan" ;;
    Fan_set_speed speed_time value.

(** [get_temp(self, eventtime)], lines 85-86. *)
Definition get_temp (eventtime : float) : M (float * float) :=
  a <- self_float "last_temp" ;;
  b <- self_float "target_temp" ;;
  ret (a, b).

Definition get_min_speed : M float := self_float "min_speed".
Definition get_max_speed : M float := self_float "max_speed".

(** [o.set_speed(t, v)] and [o.get_temp(t)] on a receiver found at run time. *)
Definition class_of (o : objref) : string :=
  match o with
  | ThePrinter => "Printer"
  | TheFan => "Fan"
  | TheSensor => "Sensor"
  | TheControl => CBB
  | TheTemperatureFan => DTF
  end.

Definition call_set_speed (o : objref) (t v : float) : M unit :=
  match o with
  | TheFan => Fan_set_speed t v
  | TheTemperatureFan => set_speed t v
  | _ => raise (AttributeError (class_of o) "set_speed")
  end.

Definition call_get_temp (o : objref) (t : float) : M (float * float) :=
  match o with
  | TheTemperatureFan => get_temp t
  | _ => raise (AttributeError (class_of o) "get_temp")
  end.

(** Lines 107-108 and 116-117: the ratio both ramps divide out, for a
    sample [t]. *)
Definition ramp_ratio (t : float) : M float :=
  a <- self_float "min_temp" ;;
  g <- self_float "target_temp" ;;
  b <- self_float "min_temp" ;;
  truediv (t - a) (g - b).

(** Lines 119-122: the clamp of [target_speed]. *)
Definition clamp_target_speed (target_speed : float) : M float :=
  lo <- self_float "min_speed" ;;
  if target_speed <=? lo then self_float "min_speed"
  else
    hi <- self_float "max_speed" ;;
    if F64.geb target_speed hi then self_float "max_speed"
    else ret target_speed.

(** [calculate_fan_speed(self)], lines 100-123.  Its only local is
    [target_speed]; it has no [return], so it yields [None]. *)
Definition calculate_fan_speed : M unit :=
  r <- self_bool "ramp_down" ;;
  target_speed <-
    (if r : bool then
       (* Ramp down *)
       t <- self_float "temperature_last_temp" ;;
       q <- ramp_ratio t ;;
       ret (abs (q - 1))
     else
       (* Ramp up *)
       t <- self_float "temperature_last_temp" ;;
       q <- ramp_ratio t ;;
       ret (abs q)) ;;
  target_speed <- clamp_target_speed target_speed ;;
  o <- self_object "target_fan" ;;
  read_time <- name [("target_speed", target_speed)] "read_time" ;;
  call_set_speed o read_time target_speed.

(** [set_temp(self, degrees)], lines 163-169. *)
Definition set_temp (degrees : float) : M unit :=
  bad <- (if F64.truthy degrees
          then hi <- self_float "max_temp" ;; ret (F64.gtb degrees hi)
          else ret false) ;;
  if bad : bool then
    _ <- self_object "printer" ;;
    lo <- self_float "min_temp" ;;
    hi <- self_float "max_temp" ;;
    raise (CommandError "Requested temperature (%.1f) out of range (%.1f:%.1f)"
             [degrees; lo; hi])
  else
    assign_this (with_target_temp degrees).

(** [set_min_speed(self, speed)], lines 171-176. *)
Definition set_min_speed (speed : float) : M unit :=
  if F64.truthy speed && ((speed <? 0.0) || F64.gtb speed 1.0) then
    _ <- self_object "printer" ;;
    raise (CommandError "Requested min speed (%.1f) out of range (0.0 : 1.0)"
             [speed])
  else
    assign_this (with_min_speed speed).

(** [set_max_speed(self, speed)], lines 178-183. *)
Definition set_max_speed (speed : float) : M unit :=
  if F64.truthy speed && ((speed <? 0.0) || F64.gtb speed 1.0) then
    _ <- self_object "printer" ;;
    raise (CommandError "Requested max speed (%.1f) out of range (0.0 : 1.0)"
             [speed])
  else
    assign_this (with_max_speed speed).

(** [set_enable(self, enable)], lines 185-194, for an integer [enable] (what
    [gcmd.get_int] returns when the parameter is given).  The function has
    no float-valued local. *)
Definition set_enable (enable : Z) : M unit :=
  if negb (enable =? 0)%Z && ((enable <? 0)%Z || (1 <? enable)%Z) then
    _ <- self_object "printer" ;;
    speed <- name [] "speed" ;;
    raise (CommandError "Requested enable (%.1f) out of range (0.0 : 1.0)"
             [speed])
  else if (0 <=? enable)%Z then
    assign_this (with_enable true)
  else
    assign_this (with_enable false) ;;
    o <- self_object "temperature_fan" ;;
    read_time <- name [] "read_time" ;;
    call_set_speed o read_time 0.0.

(** Methods of [DynamicTemperatureFan] taking one float, by name:
    [self.m(x)] looks [m] up here. *)
Definition self_methods : list (string * (float -> M unit)) :=
  [ ("set_temp", set_temp); ("set_min_speed", set_min_speed);
    ("set_max_speed", set_max_speed) ].

Definition self_call (m : string) (x : float) : M unit :=
  f <- lookup (AttributeError DTF m) m self_methods ;;
  f x.

(** [gcmd.get_float(name, default)]: the parameter if given, else [default]. *)
Definition get_float (param : option float) (default : float) : float :=
  match param with
  | Some v => v
  | None => default
  end.

Record TARGET_params : Type := mkTARGET_params {
  TARGET : option float;
  MIN_SPEED : option float;
  MAX_SPEED : option float
}.

(** [cmd_SET_DYNAMIC_FAN_TARGET(self, gcmd)], lines 127-138. *)
Definition cmd_SET_DYNAMIC_FAN_TARGET (gcmd : TARGET_params) : M unit :=
  d <- self_float "target_temp_conf" ;;
  let temp := get_float (TARGET gcmd) d in
  self_call "set_temp" temp ;;
  d <- self_float "min_speed" ;;
  let min_speed := get_float (MIN_SPEED gcmd) d in
  d <- self_float "max_speed" ;;
  let max_speed := get_float (MAX_SPEED gcmd) d in
  if F64.gtb min_speed max_speed then
    _ <- self_object "printer" ;;
    raise (CommandError
             "Requested min speed (%.1f) is greater than max speed (%.1f)"
             [min_speed; max_speed])
  else
    self_call "set_min_speed" min_speed ;;
    self_call "set_max_speed" max_speed.

Record LIMITS_params : Type := mkLIMITS_params {
  LIMITS_TARGET : option float;
  MIN_TEMP : option float;
  MAX_TEMP : option float
}.

(** [cmd_SET_DYNAMIC_TEMPERATURE_LIMITS(self, gcmd)], lines 142-153. *)
Definition cmd_SET_DYNAMIC_TEMPERATURE_LIMITS (gcmd : LIMITS_params) : M unit :=
  d <- self_float "target_temp_conf" ;;
  let temp := get_float (LIMITS_TARGET gcmd) d in
  self_call "set_temp" temp ;;
  d <- self_float "min_temp" ;;
  let min_temp := get_float (MIN_TEMP gcmd) d in
  d <- self_float "max_temp" ;;
  let max_temp := get_float (MAX_TEMP gcmd) d in
  if F64.gtb min_temp max_temp then
    _ <- self_object "printer" ;;
    raise (CommandError
             "Requested min temp (%.1f) is greater than max temp (%.1f)"
             [min_temp; max_temp])
  else
    self_call "set_min_temp" min_temp ;;
    self_call "set_max_temp" max_temp.

(** [cmd_SET_DYNAMIC_FAN_ENABLE(self, gcmd)], lines 159-161, when [ENABLE]
    is given: [gcmd.get_int] with [minval=0, maxval=1] rejects other values. *)
Definition cmd_SET_DYNAMIC_FAN_ENABLE (ENABLE : Z) : M unit :=
  if (ENABLE <? 0)%Z || (1 <? ENABLE)%Z then
    raise (CommandError "Error on 'ENABLE': out of range" [])
  else
    set_enable ENABLE.

(** ** class ControlBangBang *)

(** Methods of [ControlBangBang] taking no argument and returning a float:
    the class defines only [__init__] and [temperature_callback]. *)
Definition control_methods : list (string * M float) := [].

Definition control_call (m : string) : M float :=
  f <- lookup (AttributeError CBB m) m control_methods ;;
  f.

(** Lines 211-214: the watermark transition on [self.heating]. *)
Definition watermark (temp target_temp : float) : M unit :=
  h <- control_bool "heating" ;;
  up <- (if h : bool
         then d <- control_float "max_delta" ;; ret (F64.geb temp (target_temp + d))
         else ret false) ;;
  if up : bool then assign_control (with_heating false)
  else
    h <- control_bool "heating" ;;
    down <- (if negb h
             then d <- control_float "max_delta" ;; ret (temp <=? target_temp - d)
             else ret false) ;;
    if down : bool then assign_control (with_heating true) else ret tt.

(** [ControlBangBang.temperature_callback(self, read_time, temp)],
    lines 208-218. *)
Definition ControlBangBang_temperature_callback (read_time temp : float) : M unit :=
  o <- control_object "temperature_fan" ;;
  '(current_temp, target_temp) <- call_get_temp o read_time ;;
  e <- control_bool "enable" ;;
  if e : bool then
    watermark temp target_temp ;;
    h <- control_bool "heating" ;;
    if h : bool then
      o <- control_object "temperature_fan" ;;
      v <- control_call "calculate_fan_speed" ;;
      call_set_speed o read_time v
    else
      o <- control_object "temperature_fan" ;;
      call_set_speed o read_time 0.0
  else ret tt.

(** [DynamicTemperatureFan.temperature_callback(self, read_time, temp)],
    lines 81-83. *)
Definition temperature_callback (read_time temp : float) : M unit :=
  assign_this (with_last_temp temp) ;;
  o <- self_object "control" ;;
  match o with
  | TheControl => ControlBangBang_temperature_callback read_time temp
  | _ => raise (AttributeError (class_of o) "temperature_callback")
  end.

(** ** Construction *)

(** What [__init__] reads from its collaborators: the values returned by
    [config.getfloat] / [config.getboolean] for each option (defaults
    applied) and by [sensor.get_report_time_delta()]. *)
Record ConfigValues : Type := mkConfigValues {
  conf_min_temp : float;
  conf_max_temp : float;
  conf_report_time_delta : float;
  conf_max_speed : float;
  conf_min_speed : float;
  conf_ramp_down : bool;
  conf_target_temp : float;
  conf_max_delta : float
}.

(** [ControlBangBang.__init__], lines 203-206. *)
Definition ControlBangBang__init__ (cfg : ConfigValues) : ControlBangBang :=
  mkControlBangBang (conf_max_delta cfg) true.

(** [DynamicTemperatureFan.__init__], lines 15-47, with the control object
    it builds at line 45; no call reaches the actuator. *)
Definition DynamicTemperatureFan__init__ (cfg : ConfigValues) : World :=
  mkWorld
    (mkDynamicTemperatureFan
       (conf_min_temp cfg) (conf_max_temp cfg) (conf_report_time_delta cfg)
       (conf_max_speed cfg) (conf_max_speed cfg)
       (conf_min_speed cfg) (conf_min_speed cfg)
       (conf_ramp_down cfg) (conf_ramp_down cfg)
       false 0.0 0.0
       (conf_target_temp cfg) (conf_target_temp cfg)
       0.0 0.0)
    (ControlBangBang__init__ cfg)
    [].

(** ** The rate limiter in closed form

    [set_speed] touches the objects in three steps; each is named here so
    that the statements below can speak about it.  [set_speed_run] proves
    that the method is exactly their composition. *)

(** Lines 65-70: the value after both clamps. *)
Definition clamped (o : DynamicTemperatureFan) (value : float) : float :=
  let value := if value <=? 0.0 then 0.0
               else if value <? min_speed o then min_speed o else value in
  if target_temp o <=? 0.0 then 0.0 else value.

(** Lines 71-73: the condition under which the update is dropped. *)
Definition suppressed (o : DynamicTemperatureFan) (read_time value : float) : bool :=
  ((read_time <? next_speed_time o) || negb (F64.truthy (last_speed_value o)))
  && (abs (value - last_speed_value o) <? 0.05).

(** Lines 76-79: the objects after a forwarded command. *)
Definition forwarded (w : World) (read_time value : float) : World :=
  let speed_time := read_time + speed_delay (this w) in
  mkWorld
    (with_last_speed_value value
       (with_next_speed_time (speed_time + 0.75 * MAX_FAN_TIME) (this w)))
    (control w)
    (fan_calls w ++ [(speed_time, value)]).

(** The clamp as the specification words it: a value [<= 0] becomes [0], a
    positive value below [min_speed] becomes [min_speed], and
    [target_temp <= 0] forces [0]. *)
Definition clamp_as_specified (lo target value : float) : float :=
  if target <=? 0.0 then 0.0
  else if value <=? 0.0 then 0.0
  else if (0.0 <? value) && (value <? lo) then lo
  else value.

(** ** A concrete controller

    The configuration of the specification's scenarios: [min_temp=20],
    [max_temp=60], [target_temp=40], [max_delta=2], [ramp_down=False],
    [min_speed=0.3], [max_speed=1.0], with a sensor reporting every second. *)
Definition example_config : ConfigValues :=
  mkConfigValues 20.0 60.0 1.0 1.0 0.3 false 40.0 2.0.

Definition example_world : World := DynamicTemperatureFan__init__ example_config.

(** The same controller with [min_speed=0.0]. *)
Definition example_world_min0 : World :=
  DynamicTemperatureFan__init__ (mkConfigValues 20.0 60.0 1.0 1.0 0.0 false 40.0 2.0).

(** A controller whose limits are all below zero: [min_temp=-20],
    [max_temp=-10], [target_temp=-15]. *)
Definition example_world_freezer : World :=
  DynamicTemperatureFan__init__
    (mkConfigValues (-20.0) (-10.0) 1.0 1.0 0.3 false (-15.0) 2.0).

(** The same controller running at 0.7 inside its hold window: the state
    [set_speed(0.0, 0.7)] leaves. *)
Definition example_world_running : World :=
  fst (set_speed 0.0 0.7 example_world).

(** ** Specified properties as propositions

    Each definition below words one property the specification states of
    the controller as a proposition about the methods above, so that it can
    be decided at a concrete input. *)

(** A command forwarded by [set_speed] carries a speed that is [0] or lies
    in [[min_speed, max_speed]]. *)
Definition forwards_within_bounds (w : World) (read_time value : float) : Prop :=
  forall t v,
    fan_calls (fst (set_speed read_time value w)) = (fan_calls w ++ [(t, v)])%list ->
    v = 0.0 \/
    ((min_speed (this w) <=? v) = true /\ (v <=? max_speed (this w)) = true).

(** The speeds [SET_DYNAMIC_FAN_TARGET] is asked for (lines 130-131). *)
Definition requested_min_speed (w : World) (gcmd : TARGET_params) : float :=
  get_float (MIN_SPEED gcmd) (min_speed (this w)).
Definition requested_max_speed (w : World) (gcmd : TARGET_params) : float :=
  get_float (MAX_SPEED gcmd) (max_speed (this w)).

(** [SET_DYNAMIC_FAN_TARGET] with [min_speed > max_speed] raises and leaves
    [target_temp], [min_speed] and [max_speed] as they were. *)
Definition rejects_without_change (w : World) (gcmd : TARGET_params) : Prop :=
  F64.gtb (requested_min_speed w gcmd) (requested_max_speed w gcmd) = true ->
  let r := cmd_SET_DYNAMIC_FAN_TARGET gcmd w in
  (exists e, snd r = Raise e) /\
  target_temp (this (fst r)) = target_temp (this w) /\
  min_speed (this (fst r)) = min_speed (this w) /\
  max_speed (this (fst r)) = max_speed (this w).


(** ** The entry points the host drives

    [__init__] hands these to its collaborators: [temperature_callback] to
    the sensor (line 24), [get_temp] through [register_sensor] (line 25) and
    the three commands to [gcode] (lines 48-62).  Nothing else of the class
    is called from outside. *)
Inductive call : Type :=
| Sample (read_time temp : float)
| Query (eventtime : float)
| Target (gcmd : TARGET_params)
| Limits (gcmd : LIMITS_params)
| Enable (ENABLE : Z).

Definition enter (c : call) : M unit :=
  match c with
  | Sample read_time temp => temperature_callback read_time temp
  | Query eventtime => _ <- get_temp eventtime ;; ret tt
  | Target gcmd => cmd_SET_DYNAMIC_FAN_TARGET gcmd
  | Limits gcmd => cmd_SET_DYNAMIC_TEMPERATURE_LIMITS gcmd
  | Enable ENABLE => cmd_SET_DYNAMIC_FAN_ENABLE ENABLE
  end.

(** The objects after a sequence of calls.  Each call runs on what the
    previous one left, whether it returned or raised; a host that stops at
    the first exception sees a prefix of such a sequence. *)
Fixpoint run (cs : list call) (w : World) : World :=
  match cs with
  | [] => w
  | c :: cs' => run cs' (fst (enter c w))
  end.

(** What no entry point touches: the control object, the actuator, the
    rate limiter's state and the values read from the configuration; and
    [enable], once set, stays set. *)
Definition undisturbed (w w' : World) : Prop :=
  control w' = control w /\
  fan_calls w' = fan_calls w /\
  next_speed_time (this w') = next_speed_time (this w) /\
  last_speed_value (this w') = last_speed_value (this w) /\
  min_temp (this w') = min_temp (this w) /\
  max_temp (this w') = max_temp (this w) /\
  speed_delay (this w') = speed_delay (this w) /\
  ramp_down (this w') = ramp_down (this w) /\
  target_temp_conf (this w') = target_temp_conf (this w) /\
  (enable (this w) = true -> enable (this w') = true).

(** ** Facts about binary64 comparisons

    The order facts about [<?] and [<=?] used below, derived from the
    specification of the primitive comparisons. *)

Module F64Facts.

Import F64.

Lemma SFcompare_swap (a b : spec_float) :
  SFcompare b a = option_map CompOpp (SFcompare a b).
Proof.
  destruct a as [sa|sa| |sa ma ea], b as [sb|sb| |sb mb eb]; cbn;
    try reflexivity;
    try (destruct sa; reflexivity);
    try (destruct sb; reflexivity);
    try (destruct sa, sb; reflexivity).
  destruct sa, sb; cbn; try reflexivity;
    rewrite (Z.compare_antisym ea eb);
    destruct (ea ?= eb)%Z; cbn; try reflexivity;
    rewrite (Pos.compare_cont_antisym ma mb Eq); cbn;
    try rewrite CompOpp_involutive; reflexivity.
Qed.

Lemma SFcompare_diag (a : spec_float) :
  SFcompare a a = None \/ SFcompare a a = Some Eq.
Proof.
  destruct a as [sa|sa| |sa ma ea]; cbn; auto.
  - destruct sa; auto.
  - right. destruct sa; rewrite Z.compare_refl;
      change (Pos.compare_cont Eq ma ma) with (ma ?= ma)%positive;
      rewrite Pos.compare_refl; reflexivity.
Qed.

Lemma SFcompare_defined_l (a b : spec_float) c :
  SFcompare a b = Some c -> SFcompare a a = Some Eq.
Proof.
  intros H. destruct (SFcompare_diag a) as [N|E]; [|exact E].
  destruct a; cbn in *; congruence.
Qed.

Lemma SFcompare_defined_r (a b : spec_float) c :
  SFcompare a b = Some c -> SFcompare b b = Some Eq.
Proof.
  intros H. apply (SFcompare_defined_l b a (CompOpp c)).
  rewrite SFcompare_swap, H. reflexivity.
Qed.

Lemma SFcompare_total (a b : spec_float) :
  SFcompare a a = Some Eq -> SFcompare b b = Some Eq ->
  exists c, SFcompare a b = Some c.
Proof.
  destruct a as [sa|sa| |sa ma ea], b as [sb|sb| |sb mb eb]; cbn;
    intros Ha Hb; try discriminate; eauto.
Qed.

Lemma is_num_spec x : is_num x = true <-> SFcompare (Prim2SF x) (Prim2SF x) = Some Eq.
Proof.
  unfold is_num. rewrite leb_spec. unfold SFleb.
  destruct (SFcompare_diag (Prim2SF x)) as [E|E]; rewrite E; split; congruence.
Qed.

Lemma ltb_leb_swap x y : (x <? y) = true -> (y <=? x) = false.
Proof.
  rewrite ltb_spec, leb_spec. unfold SFltb, SFleb.
  rewrite (SFcompare_swap (Prim2SF x) (Prim2SF y)).
  destruct (SFcompare (Prim2SF x) (Prim2SF y)) as [[]|]; cbn; congruence.
Qed.

Lemma leb_ltb_swap x y : (x <=? y) = true -> (y <? x) = false.
Proof.
  rewrite ltb_spec, leb_spec. unfold SFltb, SFleb.
  rewrite (SFcompare_swap (Prim2SF x) (Prim2SF y)).
  destruct (SFcompare (Prim2SF x) (Prim2SF y)) as [[]|]; cbn; congruence.
Qed.

Lemma ltb_leb x y : (x <? y) = true -> (x <=? y) = true.
Proof.
  rewrite ltb_spec, leb_spec. unfold SFltb, SFleb.
  destruct (SFcompare (Prim2SF x) (Prim2SF y)) as [[]|]; congruence.
Qed.

Lemma leb_num_l x y : (x <=? y) = true -> is_num x = true.
Proof.
  rewrite leb_spec, is_num_spec. unfold SFleb. intros H.
  destruct (SFcompare (Prim2SF x) (Prim2SF y)) as [c|] eqn:E; [|discriminate].
  exact (SFcompare_defined_l _ _ _ E).
Qed.

Lemma leb_num_r x y : (x <=? y) = true -> is_num y = true.
Proof.
  rewrite leb_spec, is_num_spec. unfold SFleb. intros H.
  destruct (SFcompare (Prim2SF x) (Prim2SF y)) as [c|] eqn:E; [|discriminate].
  exact (SFcompare_defined_r _ _ _ E).
Qed.

Lemma ltb_num_l x y : (x <? y) = true -> is_num x = true.
Proof. intros H. exact (leb_num_l _ _ (ltb_leb _ _ H)). Qed.

Lemma ltb_num_r x y : (x <? y) = true -> is_num y = true.
Proof. intros H. exact (leb_num_r _ _ (ltb_leb _ _ H)). Qed.

(** On numbers the order is total: not [x < y] gives [y <= x]. *)
Lemma not_ltb_leb x y :
  is_num x = true -> is_num y = true -> (x <? y) = false -> (y <=? x) = true.
Proof.
  rewrite !is_num_spec, ltb_spec, leb_spec. unfold SFltb, SFleb.
  intros Hx Hy. destruct (SFcompare_total _ _ Hx Hy) as [c E].
  rewrite (SFcompare_swap (Prim2SF x) (Prim2SF y)), E.
  destruct c; cbn; congruence.
Qed.

Lemma not_leb_ltb x y :
  is_num x = true -> is_num y = true -> (x <=? y) = false -> (y <? x) = true.
Proof.
  rewrite !is_num_spec, ltb_spec, leb_spec. unfold SFltb, SFleb.
  intros Hx Hy. destruct (SFcompare_total _ _ Hx Hy) as [c E].
  rewrite (SFcompare_swap (Prim2SF x) (Prim2SF y)), E.
  destruct c; cbn; congruence.
Qed.

End F64Facts.

Module F64Arith.

Import F64 F64Facts.

Lemma Prim2SF_zero : Prim2SF 0 = S754_zero false.
Proof. reflexivity. Qed.



(** Two floats that compare differently are different. *)
Lemma neq_by_eqb x y z : (x =? z) = true -> (y =? z) = false -> x <> y.
Proof. intros Hx Hy E. rewrite E in Hx. congruence. Qed.

End F64Arith.

(** ** The methods in closed form *)

Import F64 F64Facts F64Arith.

Ltac split_ifs :=
  repeat match goal with
         | |- context [if ?b then _ else _] => destruct b eqn:?; cbn
         end.

Ltac run_lookups :=
  cbv [bind ret raise self_float self_bool self_object control_float
       control_bool control_object name self_call control_call lookup
       self_floats self_bools self_objects control_floats control_bools
       control_objects self_methods control_methods module_globals
       app assoc String.eqb Ascii.eqb Bool.eqb DTF CBB].

(** Each updater writes its own attribute and no other. *)
Lemma updaters_write_one_attribute
    a1 a2 a3 a4 a5 a6 a7 (a8 a9 a10 : bool) a11 a12 a13 a14 a15 a16 v (b : bool) :
  let o := mkDynamicTemperatureFan a1 a2 a3 a4 a5 a6 a7 a8 a9 a10 a11 a12 a13
             a14 a15 a16 in
  with_max_speed v o =
    mkDynamicTemperatureFan a1 a2 a3 a4 v a6 a7 a8 a9 a10 a11 a12 a13 a14 a15 a16 /\
  with_min_speed v o =
    mkDynamicTemperatureFan a1 a2 a3 a4 a5 a6 v a8 a9 a10 a11 a12 a13 a14 a15 a16 /\
  with_enable b o =
    mkDynamicTemperatureFan a1 a2 a3 a4 a5 a6 a7 a8 a9 b a11 a12 a13 a14 a15 a16 /\
  with_last_temp v o =
    mkDynamicTemperatureFan a1 a2 a3 a4 a5 a6 a7 a8 a9 a10 v a12 a13 a14 a15 a16 /\
  with_target_temp v o =
    mkDynamicTemperatureFan a1 a2 a3 a4 a5 a6 a7 a8 a9 a10 a11 a12 a13 v a15 a16 /\
  with_next_speed_time v o =
    mkDynamicTemperatureFan a1 a2 a3 a4 a5 a6 a7 a8 a9 a10 a11 a12 a13 a14 v a16 /\
  with_last_speed_value v o =
    mkDynamicTemperatureFan a1 a2 a3 a4 a5 a6 a7 a8 a9 a10 a11 a12 a13 a14 a15 v.
Proof. cbv zeta. repeat split. Qed.

Lemma with_heating_writes_heating d h b :
  with_heating b (mkControlBangBang d h) = mkControlBangBang d b.
Proof. reflexivity. Qed.

(** What a forwarded command leaves in the attributes and at the actuator. *)
Lemma forwarded_attributes w read_time value :
  let w' := forwarded w read_time value in
  next_speed_time (this w') = read_time + speed_delay (this w) + 0.75 * 5.0 /\
  last_speed_value (this w') = value /\
  fan_calls w' = (fan_calls w ++ [(read_time + speed_delay (this w), value)])%list.
Proof. cbv zeta. repeat split. Qed.

Lemma set_speed_run w read_time value :
  set_speed read_time value w =
  if suppressed (this w) read_time (clamped (this w) value)
  then (w, Return tt)
  else (forwarded w read_time (clamped (this w) value), Return tt).
Proof.
  unfold set_speed, clamped, suppressed, forwarded, F64.truthy.
  run_lookups.
  destruct (value <=? 0) eqn:E1; [|destruct (value <? min_speed (this w)) eqn:E2];
    destruct (target_temp (this w) <=? 0) eqn:E3;
    destruct (read_time <? next_speed_time (this w)) eqn:E4; cbn;
    try (destruct (last_speed_value (this w) =? 0) eqn:E5; cbn);
    split_ifs; reflexivity.
Qed.

Lemma clamped_as_specified o value :
  clamped o value = clamp_as_specified (min_speed o) (target_temp o) value.
Proof.
  unfold clamped, clamp_as_specified.
  destruct (target_temp o <=? 0);
    [destruct (value <=? 0); [|destruct (value <? min_speed o)]; reflexivity|].
  destruct (value <=? 0) eqn:E1; [reflexivity|].
  destruct (value <? min_speed o) eqn:E2; [|rewrite andb_false_r; reflexivity].
  rewrite (not_leb_ltb value 0); [reflexivity| | |exact E1].
  - exact (ltb_num_l _ _ E2).
  - reflexivity.
Qed.

(** [set_temp] checks the upper bound only, and only for a nonzero value. *)
Lemma set_temp_run w degrees :
  set_temp degrees w =
  if F64.truthy degrees && F64.gtb degrees (max_temp (this w))
  then (w, Raise (CommandError
                    "Requested temperature (%.1f) out of range (%.1f:%.1f)"
                    [degrees; min_temp (this w); max_temp (this w)]))
  else (mkWorld (with_target_temp degrees (this w)) (control w) (fan_calls w),
        Return tt).
Proof.
  unfold set_temp. run_lookups.
  destruct (F64.truthy degrees); cbn; [|reflexivity].
  unfold F64.gtb. destruct (max_temp (this w) <? degrees); reflexivity.
Qed.

(** [set_temp] accepts every value that is at most [max_temp], whatever
    [min_temp] is. *)
Lemma set_temp_accepts_up_to_max_temp w degrees :
  (degrees <=? max_temp (this w)) = true ->
  set_temp degrees w =
    (mkWorld (with_target_temp degrees (this w)) (control w) (fan_calls w),
     Return tt).
Proof.
  intros H. rewrite set_temp_run. unfold F64.gtb.
  rewrite (leb_ltb_swap _ _ H), andb_false_r. reflexivity.
Qed.

(** The ratio raises exactly when [target_temp - min_temp] is a zero. *)
Lemma ramp_ratio_run w t :
  ramp_ratio t w =
  (w, if target_temp (this w) - min_temp (this w) =? 0
      then Raise ZeroDivisionError
      else Return ((t - min_temp (this w))
                   / (target_temp (this w) - min_temp (this w)))).
Proof.
  unfold ramp_ratio, truediv. run_lookups.
  destruct (target_temp (this w) - min_temp (this w) =? 0); reflexivity.
Qed.

(** The clamp of lines 119-122 tests the lower bound first. *)
Lemma clamp_target_speed_run w s :
  clamp_target_speed s w =
  (w, Return (if s <=? min_speed (this w) then min_speed (this w)
              else if max_speed (this w) <=? s then max_speed (this w)
              else s)).
Proof.
  unfold clamp_target_speed, F64.geb. run_lookups.
  destruct (s <=? min_speed (this w)); [reflexivity|].
  destruct (max_speed (this w) <=? s); reflexivity.
Qed.

(** For an integer argument [set_enable] either raises (on the unbound
    name in its message) or sets [enable] to [True]: the branch that clears
    the flag is never taken. *)
Lemma set_enable_never_disables w z :
  (set_enable z w = (w, Raise (NameError "speed"))) \/
  (set_enable z w =
     (mkWorld (with_enable true (this w)) (control w) (fan_calls w), Return tt)).
Proof.
  unfold set_enable.
  destruct (Z.eqb_spec z 0), (Z.ltb_spec z 0), (Z.ltb_spec 1 z), (Z.leb_spec 0 z);
    cbn; try lia; auto.
Qed.

(** The watermark transition of lines 211-214, by cases on [heating]. *)
Lemma watermark_run w temp target_temp :
  watermark temp target_temp w =
  (if heating (control w)
   then if target_temp + max_delta (control w) <=? temp
        then mkWorld (this w) (with_heating false (control w)) (fan_calls w)
        else w
   else if temp <=? target_temp - max_delta (control w)
        then mkWorld (this w) (with_heating true (control w)) (fan_calls w)
        else w,
   Return tt).
Proof.
  unfold watermark, F64.geb. run_lookups.
  destruct (heating (control w)) eqn:H; cbn.
  - destruct (target_temp + max_delta (control w) <=? temp); cbn;
      [reflexivity | rewrite H; reflexivity].
  - rewrite H; cbn.
    destruct (temp <=? target_temp - max_delta (control w)); reflexivity.
Qed.

(** Inside the guard the transition is the one of a deadband: it leaves a
    running controller at or above [target + delta], enters at or below
    [target - delta], and keeps the state strictly in between. *)
Lemma watermark_deadband w temp target_temp :
  let w' := fst (watermark temp target_temp w) in
  (heating (control w) = true ->
   (target_temp + max_delta (control w) <=? temp) = true ->
   heating (control w') = false) /\
  (heating (control w) = false ->
   (temp <=? target_temp - max_delta (control w)) = true ->
   heating (control w') = true) /\
  ((target_temp - max_delta (control w) <? temp) = true ->
   (temp <? target_temp + max_delta (control w)) = true ->
   w' = w).
Proof.
  cbv zeta. rewrite watermark_run. cbn. repeat split.
  - intros H1 H2. rewrite H1, H2. reflexivity.
  - intros H1 H2. rewrite H1, H2. reflexivity.
  - intros H1 H2.
    rewrite (ltb_leb_swap _ _ H1), (ltb_leb_swap _ _ H2).
    destruct (heating (control w)); reflexivity.
Qed.

(** [SET_DYNAMIC_FAN_TEMPERATURE_LIMITS] never returns normally and never
    moves the temperature bounds: when [set_temp] and the ordering test pass,
    [self.set_min_temp] is not a method of the class. *)
Lemma LIMITS_always_raises w gcmd :
  exists w' e,
    cmd_SET_DYNAMIC_TEMPERATURE_LIMITS gcmd w = (w', Raise e) /\
    min_temp (this w') = min_temp (this w) /\
    max_temp (this w') = max_temp (this w).
Proof.
  unfold cmd_SET_DYNAMIC_TEMPERATURE_LIMITS. run_lookups.
  rewrite set_temp_run.
  destruct (F64.truthy _ && F64.gtb _ _); cbn.
  - eexists _, _. repeat split.
  - match goal with
    | |- context [if ?b then _ else _] => destruct b
    end; eexists _, _; repeat split.
Qed.

(** Disabling while the fan runs at 0.7 inside its hold window: the flag is
    set, and the only command the actuator has seen is the earlier one. *)
Example set_enable_zero_while_running :
  let w := example_world_running in
  let r := set_enable 0 w in
  last_speed_value (this w) = 0.7 /\
  (2.0 <? next_speed_time (this w)) = true /\
  snd r = Return tt /\
  enable (this (fst r)) = true /\
  fan_calls (fst r) = [(1.0, 0.7)].
Proof. cbv zeta. repeat split. Qed.

(** ** Claims *)

(** C1 (the code departs from the claim).  [set_enable(0)], reached by
    [SET_DYNAMIC_FAN_ENABLE ENABLE=0], takes the branch [enable >= 0]: it
    sets the [enable] flag to [True], returns normally and sends nothing to
    the actuator, from every state (so also while the fan runs inside its
    hold window). *)
Theorem C1_set_enable_zero_enables w :
  let r := set_enable 0 w in
  snd r = Return tt /\
  enable (this (fst r)) = true /\
  fan_calls (fst r) = fan_calls w /\
  cmd_SET_DYNAMIC_FAN_ENABLE 0 w = r.
Proof. cbv zeta. repeat split. Qed.

(** C2 (amended).  A speed forwarded by [set_speed] is exactly [0.0], or
    [min_speed], or the submitted value itself: there is no upper clamp.  It
    lies in [[min_speed, max_speed]] or is [0.0] whenever the submitted value
    is at most [max_speed] and [min_speed <= max_speed]. *)
Theorem C2_forwarded_speed w read_time value t v :
  fan_calls (fst (set_speed read_time value w)) = (fan_calls w ++ [(t, v)])%list ->
  (v = 0.0 \/ v = min_speed (this w) \/ v = value) /\
  ((value <=? max_speed (this w)) = true ->
   (min_speed (this w) <=? max_speed (this w)) = true ->
   v = 0.0 \/
   ((min_speed (this w) <=? v) = true /\ (v <=? max_speed (this w)) = true)).
Proof.
  rewrite set_speed_run.
  destruct (suppressed (this w) read_time (clamped (this w) value)); cbn.
  - intros H. apply (f_equal (@List.length _)) in H.
    rewrite List.length_app in H. cbn in H. lia.
  - intros H. apply app_inv_head in H. injection H as _ Hv. subst v.
    unfold clamped.
    destruct (target_temp (this w) <=? 0); [split; auto|].
    destruct (value <=? 0) eqn:E1; [split; auto|].
    destruct (value <? min_speed (this w)) eqn:E2.
    + split; [auto|]. intros _ Hm. right. split; [|exact Hm].
      exact (leb_num_l _ _ Hm).
    + split; [auto|]. intros Hv Hm. right. split; [|exact Hv].
      apply not_ltb_leb; [exact (leb_num_l _ _ Hv) | exact (leb_num_l _ _ Hm) | exact E2].
Qed.

Lemma C2_forwarded_speed_witness :
  (0.9 = 0.0 \/ 0.9 = min_speed (this example_world) \/ 0.9 = 0.9) /\
  ((0.9 <=? max_speed (this example_world)) = true ->
   (min_speed (this example_world) <=? max_speed (this example_world)) = true ->
   0.9 = 0.0 \/
   ((min_speed (this example_world) <=? 0.9) = true /\
    (0.9 <=? max_speed (this example_world)) = true)).
Proof. apply (C2_forwarded_speed example_world 0.0 0.9 1.0 0.9). reflexivity. Defined.

(** C2, as stated, fails: with [min_speed=0.3] and [max_speed=1.0],
    [set_speed(0.0, 5.0)] forwards the speed [5.0]. *)
Lemma C2_counterexample : ~ forwards_within_bounds example_world 0.0 5.0.
Proof.
  intros H. destruct (H 1.0 5.0 eq_refl) as [E | [_ E]].
  - revert E. apply (neq_by_eqb 5.0 0.0 5.0); reflexivity.
  - vm_compute in E. discriminate.
Qed.

(** C3 (amended).  When the requested [min_speed] exceeds the requested
    [max_speed], [SET_DYNAMIC_FAN_TARGET] raises and leaves [min_speed] and
    [max_speed] as they were; [target_temp] is as [set_temp] left it at
    line 129: unchanged when [set_temp] rejected [TARGET], otherwise already
    [TARGET] (or [target_temp_conf] when [TARGET] is omitted). *)
Theorem C3_target_rejected w gcmd :
  let temp := get_float (TARGET gcmd) (target_temp_conf (this w)) in
  F64.gtb (requested_min_speed w gcmd) (requested_max_speed w gcmd) = true ->
  exists w' e,
    cmd_SET_DYNAMIC_FAN_TARGET gcmd w = (w', Raise e) /\
    min_speed (this w') = min_speed (this w) /\
    max_speed (this w') = max_speed (this w) /\
    target_temp (this w') =
      (if F64.truthy temp && F64.gtb temp (max_temp (this w))
       then target_temp (this w) else temp).
Proof.
  cbv zeta. unfold requested_min_speed, requested_max_speed. intros G.
  unfold cmd_SET_DYNAMIC_FAN_TARGET. run_lookups.
  rewrite set_temp_run.
  destruct (F64.truthy _ && F64.gtb _ _).
  - eexists _, _. repeat split.
  - cbn. unfold F64.gtb in G. cbn in G.
    rewrite G. eexists _, _. repeat split.
Qed.

Lemma C3_target_rejected_witness :
  exists w' e,
    cmd_SET_DYNAMIC_FAN_TARGET (mkTARGET_params (Some 50.0) (Some 0.9) (Some 0.5))
      example_world = (w', Raise e) /\
    min_speed (this w') = min_speed (this example_world) /\
    max_speed (this w') = max_speed (this example_world) /\
    target_temp (this w') =
      (if F64.truthy 50.0 && F64.gtb 50.0 (max_temp (this example_world))
       then target_temp (this example_world) else 50.0).
Proof.
  apply (C3_target_rejected example_world
           (mkTARGET_params (Some 50.0) (Some 0.9) (Some 0.5))).
  reflexivity.
Defined.

(** C3, as stated, fails: [SET_DYNAMIC_FAN_TARGET TARGET=50 MIN_SPEED=0.9
    MAX_SPEED=0.5] on a controller whose target is 40 raises, and the
    target is 50 afterwards. *)
Lemma C3_counterexample :
  ~ rejects_without_change example_world
      (mkTARGET_params (Some 50.0) (Some 0.9) (Some 0.5)).
Proof.
  intros H. destruct (H eq_refl) as (_ & E & _).
  revert E. apply (neq_by_eqb 50.0 40.0 50.0); reflexivity.
Qed.

(** C4 (the code departs from the claim).  [ControlBangBang] has no
    attribute [enable], so its [temperature_callback] raises
    [AttributeError] at the guard of line 210, before either transition:
    whatever the sample, [heating] and the rest of the state are as before
    (the caller has stored [last_temp]), and nothing reaches the actuator. *)
Theorem C4_temperature_callback_raises w read_time temp :
  ControlBangBang_temperature_callback read_time temp w
    = (w, Raise (AttributeError "ControlBangBang" "enable")) /\
  temperature_callback read_time temp w
    = (mkWorld (with_last_temp temp (this w)) (control w) (fan_calls w),
       Raise (AttributeError "ControlBangBang" "enable")).
Proof. split; reflexivity. Qed.

(** C5.  A call of [set_speed] that is not suppressed clamps the value as
    specified, schedules it for [read_time + speed_delay], sets
    [next_speed_time] to that time plus [0.75 * 5.0], stores the clamped
    value in [last_speed_value], and forwards [(scheduled time, value)] to
    the actuator as its latest command; nothing else changes. *)
Theorem C5_set_speed_forwards w read_time value :
  let o := this w in
  let v := clamp_as_specified (min_speed o) (target_temp o) value in
  let scheduled := read_time + speed_delay o in
  suppressed o read_time v = false ->
  exists w',
    set_speed read_time value w = (w', Return tt) /\
    next_speed_time (this w') = scheduled + 0.75 * 5.0 /\
    last_speed_value (this w') = v /\
    fan_calls w' = (fan_calls w ++ [(scheduled, v)])%list /\
    control w' = control w /\
    min_temp (this w') = min_temp o /\
    max_temp (this w') = max_temp o /\
    speed_delay (this w') = speed_delay o /\
    max_speed_conf (this w') = max_speed_conf o /\
    max_speed (this w') = max_speed o /\
    min_speed_conf (this w') = min_speed_conf o /\
    min_speed (this w') = min_speed o /\
    ramp_down_conf (this w') = ramp_down_conf o /\
    ramp_down (this w') = ramp_down o /\
    enable (this w') = enable o /\
    last_temp (this w') = last_temp o /\
    last_temp_time (this w') = last_temp_time o /\
    target_temp_conf (this w') = target_temp_conf o /\
    target_temp (this w') = target_temp o.
Proof.
  cbv zeta. rewrite <- clamped_as_specified. intros S.
  rewrite set_speed_run, S.
  eexists. split; [reflexivity|]. repeat split.
Qed.

Lemma C5_set_speed_forwards_witness :
  exists w',
    set_speed 0.0 0.9 example_world = (w', Return tt) /\
    next_speed_time (this w') = 4.75 /\
    last_speed_value (this w') = 0.9 /\
    fan_calls w' = [(1.0, 0.9)] /\
    control w' = control example_world /\
    min_temp (this w') = 20.0 /\
    max_temp (this w') = 60.0 /\
    speed_delay (this w') = 1.0 /\
    max_speed_conf (this w') = 1.0 /\
    max_speed (this w') = 1.0 /\
    min_speed_conf (this w') = 0.3 /\
    min_speed (this w') = 0.3 /\
    ramp_down_conf (this w') = false /\
    ramp_down (this w') = false /\
    enable (this w') = false /\
    last_temp (this w') = 0.0 /\
    last_temp_time (this w') = 0.0 /\
    target_temp_conf (this w') = 40.0 /\
    target_temp (this w') = 40.0.
Proof. exact (C5_set_speed_forwards example_world 0.0 0.9 eq_refl). Defined.

(** C6 (amended).  At construction the control law is active:
    [ControlBangBang.__init__] sets [heating = True].  What is off is the
    controller's [enable] flag, and construction sends nothing to the
    actuator. *)
Theorem C6_initial_state cfg :
  let w := DynamicTemperatureFan__init__ cfg in
  heating (control w) = true /\
  enable (this w) = false /\
  last_speed_value (this w) = 0.0 /\
  fan_calls w = [].
Proof. cbv zeta. repeat split. Qed.

(** C6, as stated, fails: the freshly built control law is not inactive. *)
Lemma C6_counterexample :
  heating (control (DynamicTemperatureFan__init__ example_config)) <> false.
Proof. discriminate. Qed.




(** C8 (the code departs from the claim).  [calculate_fan_speed] reads
    [self.temperature_last_temp] first in either ramp mode, an attribute no
    [DynamicTemperatureFan] has: the call raises [AttributeError] from every
    state, before the ratio or the clamp is computed, and changes nothing. *)
Theorem C8_calculate_fan_speed_raises w :
  calculate_fan_speed w =
    (w, Raise (AttributeError "DynamicTemperatureFan" "temperature_last_temp")).
Proof.
  unfold calculate_fan_speed. run_lookups.
  destruct (ramp_down (this w)); reflexivity.
Qed.

(** C9 (the code departs from the claim).  With [min_temp=20] and
    [max_temp=60], [set_temp(10.0)] is accepted: afterwards [target_temp] is
    [10.0], strictly positive and below [min_temp]. *)
Theorem C9_set_temp_accepts_below_min_temp :
  let r := set_temp 10.0 example_world in
  snd r = Return tt /\
  target_temp (this (fst r)) = 10.0 /\
  (0.0 <? target_temp (this (fst r))) = true /\
  (target_temp (this (fst r)) <? min_temp (this (fst r))) = true.
Proof. cbv zeta. repeat split. Qed.

(** C10.  When [last_speed_value] is zero and the clamped value is within
    [0.05] of it, [set_speed] suppresses the command and changes nothing,
    for every [read_time]: also at or past [next_speed_time]. *)
Theorem C10_zero_sentinel_suppresses w read_time value :
  (last_speed_value (this w) =? 0.0) = true ->
  (abs (clamped (this w) value - last_speed_value (this w)) <? 0.05) = true ->
  set_speed read_time value w = (w, Return tt).
Proof.
  intros Z S. rewrite set_speed_run. unfold suppressed, F64.truthy.
  rewrite Z, S. cbn. rewrite orb_true_r. reflexivity.
Qed.

Lemma C10_zero_sentinel_suppresses_witness :
  (next_speed_time (this example_world_min0) <=? 100.0) = true /\
  set_speed 100.0 0.04 example_world_min0 = (example_world_min0, Return tt).
Proof.
  split; [reflexivity|].
  apply (C10_zero_sentinel_suppresses example_world_min0 100.0 0.04); reflexivity.
Defined.

(** ** More binary64 facts *)

Module F64Extra.

Lemma Prim2SF_nan : Prim2SF nan = S754_nan.
Proof. reflexivity. Qed.

(** [x - x] is [0.0] unless [x] is NaN or infinite. *)
Lemma sub_diag x : finite_or_zero (Prim2SF x) -> x - x = 0.
Proof.
  intros F. apply Prim2SF_inj. rewrite sub_spec, Prim2SF_zero.
  destruct (Prim2SF x) as [s|s| |s m e]; cbn in F; try contradiction.
  - destruct s; reflexivity.
  - unfold SF64sub, SFsub. rewrite Z.sub_diag. reflexivity.
Qed.

(** [abs(x) < inf] singles out the finite floats. *)
Lemma abs_ltb_infinity_finite x :
  (abs x <? infinity) = true -> finite_or_zero (Prim2SF x).
Proof.
  rewrite ltb_spec, abs_spec.
  change (Prim2SF infinity) with (S754_infinity false).
  destruct (Prim2SF x) as [s|s| |s m e]; cbn; try discriminate; auto.
Qed.

(** NaN absorbs subtraction and [abs], and is below nothing. *)
Lemma sub_nan_r x : x - nan = nan.
Proof.
  apply Prim2SF_inj. rewrite sub_spec, Prim2SF_nan.
  destruct (Prim2SF x) as [s|s| |s m e]; reflexivity.
Qed.

Lemma sub_nan_l x : nan - x = nan.
Proof.
  apply Prim2SF_inj. rewrite sub_spec, Prim2SF_nan. reflexivity.
Qed.

Lemma nan_ltb x : (nan <? x) = false.
Proof. rewrite ltb_spec, Prim2SF_nan. reflexivity. Qed.

(** A float strictly below another is not equal to it. *)
Lemma ltb_eqb x y : (x <? y) = true -> (x =? y) = false.
Proof.
  rewrite ltb_spec, eqb_spec. unfold SFltb, SFeqb.
  destruct (SFcompare (Prim2SF x) (Prim2SF y)) as [[]|]; congruence.
Qed.

(** A float above [1.0] is not a zero. *)
Lemma above_one_nonzero x : (1 <? x) = true -> (x =? 0) = false.
Proof.
  rewrite ltb_spec, eqb_spec, Prim2SF_zero.
  change (Prim2SF 1) with (S754_finite false 4503599627370496 (-52)).
  destruct (Prim2SF x) as [s|s| |s m e]; cbn; try discriminate; try reflexivity.
  - destruct s; reflexivity.
  - destruct s; reflexivity.
Qed.

End F64Extra.

Import F64Extra.

(** ** Further properties of the rate limiter *)

(** X1.  Inside the hold window ([read_time < next_speed_time]) a request
    whose clamped value is within [0.05] of [last_speed_value] is dropped:
    [set_speed] returns, the actuator is not called and no attribute
    changes. *)
Theorem X1_hold_window_suppresses w read_time value :
  (read_time <? next_speed_time (this w)) = true ->
  (abs (clamped (this w) value - last_speed_value (this w)) <? 0.05) = true ->
  set_speed read_time value w = (w, Return tt).
Proof.
  intros H S. rewrite set_speed_run. unfold suppressed.
  rewrite H, S. reflexivity.
Qed.

Lemma X1_hold_window_suppresses_witness :
  set_speed 2.0 0.72 example_world_running = (example_world_running, Return tt).
Proof.
  apply (X1_hold_window_suppresses example_world_running 2.0 0.72); reflexivity.
Defined.

(** X2.  Repeating a request: when [set_speed(read_time, value)] forwards a
    finite speed, asking for the same [value] again before the new
    [next_speed_time] is dropped, so the actuator has received exactly the
    one command. *)
Theorem X2_repeat_is_suppressed w read_time read_time' value :
  let c := clamped (this w) value in
  let w1 := fst (set_speed read_time value w) in
  suppressed (this w) read_time c = false ->
  (abs c <? infinity) = true ->
  (read_time' <? next_speed_time (this w1)) = true ->
  set_speed read_time' value w1 = (w1, Return tt) /\
  fan_calls w1 = (fan_calls w ++ [(read_time + speed_delay (this w), c)])%list.
Proof.
  cbv zeta. intros S F.
  rewrite (set_speed_run w), S. cbn [fst]. intros H.
  split; [|reflexivity].
  rewrite set_speed_run.
  change (clamped (this (forwarded w read_time (clamped (this w) value))) value)
    with (clamped (this w) value).
  unfold suppressed at 1.
  change (last_speed_value
            (this (forwarded w read_time (clamped (this w) value))))
    with (clamped (this w) value).
  rewrite H, (sub_diag _ (abs_ltb_infinity_finite _ F)). reflexivity.
Qed.

Lemma X2_repeat_is_suppressed_witness :
  set_speed 2.0 0.7 example_world_running = (example_world_running, Return tt) /\
  fan_calls example_world_running = [(1.0, 0.7)].
Proof.
  apply (X2_repeat_is_suppressed example_world 0.0 2.0 0.7); reflexivity.
Defined.

(** X3.  NaN is not filtered.  With a positive target, a NaN request passes
    both clamps and the significance test: it is sent to the actuator and
    stored in [last_speed_value]; and while [last_speed_value] is NaN no
    request at all is suppressed. *)
Theorem X3_nan_is_forwarded w read_time :
  (target_temp (this w) <=? 0.0) = false ->
  set_speed read_time nan w = (forwarded w read_time nan, Return tt) /\
  (last_speed_value (this (fst (set_speed read_time nan w))) = nan /\
   fan_calls (fst (set_speed read_time nan w)) =
     (fan_calls w ++ [(read_time + speed_delay (this w), nan)])%list) /\
  forall read_time' value,
    suppressed (this (forwarded w read_time nan)) read_time'
      (clamped (this (forwarded w read_time nan)) value) = false.
Proof.
  intros T.
  assert (E : set_speed read_time nan w = (forwarded w read_time nan, Return tt)).
  { rewrite set_speed_run. unfold clamped, suppressed.
    rewrite T, nan_ltb. change (nan <=? 0) with false. cbv iota.
    rewrite sub_nan_l. change (abs nan <? 0.05) with false.
    rewrite andb_false_r. reflexivity. }
  split; [exact E|]. split; [rewrite E; split; reflexivity|].
  - intros r v. unfold suppressed.
    change (last_speed_value (this (forwarded w read_time nan))) with nan.
    rewrite sub_nan_r. change (abs nan <? 0.05) with false.
    apply andb_false_r.
Qed.

Lemma X3_nan_is_forwarded_witness :
  set_speed 0.0 nan example_world = (forwarded example_world 0.0 nan, Return tt) /\
  (last_speed_value (this (fst (set_speed 0.0 nan example_world))) = nan /\
   fan_calls (fst (set_speed 0.0 nan example_world)) = [(1.0, nan)]) /\
  forall read_time' value,
    suppressed (this (forwarded example_world 0.0 nan)) read_time'
      (clamped (this (forwarded example_world 0.0 nan)) value) = false.
Proof. exact (X3_nan_is_forwarded example_world 0.0 eq_refl). Defined.

(** X4.  Disabling by temperature: once [set_temp] has accepted a target
    that is zero or negative, every command [set_speed] forwards carries
    the speed [0.0], whatever is requested. *)
Theorem X4_nonpositive_target_forces_zero w degrees w1 read_time value t v :
  set_temp degrees w = (w1, Return tt) ->
  (degrees <=? 0.0) = true ->
  fan_calls (fst (set_speed read_time value w1)) = (fan_calls w1 ++ [(t, v)])%list ->
  v = 0.0.
Proof.
  rewrite set_temp_run.
  destruct (F64.truthy degrees && F64.gtb degrees (max_temp (this w)));
    [discriminate|].
  intros E D. injection E as E. subst w1.
  rewrite set_speed_run.
  match goal with
  | |- context [if ?b then _ else _] => destruct b
  end; cbn [fst]; intros H.
  - apply (f_equal (@List.length _)) in H.
    rewrite List.length_app in H. cbn in H. lia.
  - unfold forwarded in H. cbn [fan_calls] in H.
    apply app_inv_head in H. injection H as _ Hv. subst v.
    unfold clamped. cbn [target_temp with_target_temp this].
    rewrite D. reflexivity.
Qed.

Lemma X4_nonpositive_target_forces_zero_witness :
  fan_calls (fst (set_speed 9.0 0.9 (fst (set_temp 0.0 example_world_running))))
    = [(1.0, 0.7); (10.0, 0.0)] /\
  0.0 = 0.0.
Proof.
  split; [reflexivity|].
  apply (X4_nonpositive_target_forces_zero example_world_running 0.0
           (fst (set_temp 0.0 example_world_running)) 9.0 0.9 10.0 0.0);
    reflexivity.
Defined.

(** ** Further properties of the setters and commands *)

(** X5.  Speed setters, accepted values: a speed in [[0.0, 1.0]] is
    accepted by [set_min_speed] and by [set_max_speed], stored, and read
    back unchanged by [get_min_speed] / [get_max_speed]; nothing else
    changes. *)
Theorem X5_speed_setters_accept w speed :
  (0.0 <=? speed) = true ->
  (speed <=? 1.0) = true ->
  (set_min_speed speed ;; get_min_speed) w =
    (mkWorld (with_min_speed speed (this w)) (control w) (fan_calls w),
     Return speed) /\
  (set_max_speed speed ;; get_max_speed) w =
    (mkWorld (with_max_speed speed (this w)) (control w) (fan_calls w),
     Return speed).
Proof.
  intros L H. unfold set_min_speed, set_max_speed, F64.gtb.
  rewrite (leb_ltb_swap _ _ L), (leb_ltb_swap _ _ H), andb_false_r.
  split; reflexivity.
Qed.

Lemma X5_speed_setters_accept_witness :
  (set_min_speed 0.5 ;; get_min_speed) example_world =
    (mkWorld (with_min_speed 0.5 (this example_world)) (control example_world)
       (fan_calls example_world),
     Return 0.5) /\
  (set_max_speed 0.5 ;; get_max_speed) example_world =
    (mkWorld (with_max_speed 0.5 (this example_world)) (control example_world)
       (fan_calls example_world),
     Return 0.5).
Proof. apply (X5_speed_setters_accept example_world 0.5); reflexivity. Defined.

(** X6.  Speed setters, rejected values: a speed below [0.0] or above [1.0]
    makes [set_min_speed] and [set_max_speed] raise the command error that
    names it, and leaves every attribute as it was. *)
Theorem X6_speed_setters_reject w speed :
  (speed <? 0.0) || (1.0 <? speed) = true ->
  set_min_speed speed w =
    (w, Raise (CommandError
                 "Requested min speed (%.1f) out of range (0.0 : 1.0)" [speed])) /\
  set_max_speed speed w =
    (w, Raise (CommandError
                 "Requested max speed (%.1f) out of range (0.0 : 1.0)" [speed])).
Proof.
  intros R. unfold set_min_speed, set_max_speed, F64.gtb, F64.truthy.
  rewrite R.
  assert (Z : (speed =? 0) = false).
  { apply orb_true_iff in R. destruct R as [R|R].
    - exact (ltb_eqb _ _ R).
    - exact (above_one_nonzero _ R). }
  rewrite Z. split; reflexivity.
Qed.

Lemma X6_speed_setters_reject_witness :
  set_min_speed 1.5 example_world =
    (example_world,
     Raise (CommandError
              "Requested min speed (%.1f) out of range (0.0 : 1.0)" [1.5])) /\
  set_max_speed 1.5 example_world =
    (example_world,
     Raise (CommandError
              "Requested max speed (%.1f) out of range (0.0 : 1.0)" [1.5])).
Proof. apply (X6_speed_setters_reject example_world 1.5). reflexivity. Defined.

(** X7.  [SET_DYNAMIC_FAN_TARGET], the accepted case: when the target is at
    most [max_temp], both requested speeds lie in [[0.0, 1.0]] and the
    minimum does not exceed the maximum, the command returns and has stored
    all three values; an omitted [TARGET] stores [target_temp_conf], not
    the current target. *)
Theorem X7_target_command_applies w gcmd :
  let temp := get_float (TARGET gcmd) (target_temp_conf (this w)) in
  let lo := requested_min_speed w gcmd in
  let hi := requested_max_speed w gcmd in
  (temp <=? max_temp (this w)) = true ->
  (0.0 <=? lo) = true -> (lo <=? 1.0) = true ->
  (0.0 <=? hi) = true -> (hi <=? 1.0) = true ->
  (lo <=? hi) = true ->
  cmd_SET_DYNAMIC_FAN_TARGET gcmd w =
    (mkWorld
       (with_max_speed hi (with_min_speed lo (with_target_temp temp (this w))))
       (control w) (fan_calls w),
     Return tt) /\
  target_temp (this (fst (cmd_SET_DYNAMIC_FAN_TARGET gcmd w))) = temp /\
  min_speed (this (fst (cmd_SET_DYNAMIC_FAN_TARGET gcmd w))) = lo /\
  max_speed (this (fst (cmd_SET_DYNAMIC_FAN_TARGET gcmd w))) = hi.
Proof.
  cbv zeta. unfold requested_min_speed, requested_max_speed.
  intros T L0 L1 H0 H1 LH.
  match goal with
  | |- ?A = ?B /\ _ => assert (E : A = B)
  end.
  { unfold cmd_SET_DYNAMIC_FAN_TARGET. run_lookups.
    rewrite (set_temp_accepts_up_to_max_temp w _ T). cbn.
    unfold F64.gtb. rewrite (leb_ltb_swap _ _ LH).
    unfold set_min_speed, set_max_speed, F64.gtb.
    rewrite (leb_ltb_swap _ _ L0), (leb_ltb_swap _ _ L1),
      (leb_ltb_swap _ _ H0), (leb_ltb_swap _ _ H1), !andb_false_r.
    reflexivity. }
  split; [exact E|]. rewrite E. repeat split.
Qed.

Lemma X7_target_command_applies_witness :
  cmd_SET_DYNAMIC_FAN_TARGET (mkTARGET_params None (Some 0.2) None)
    (fst (set_temp 50.0 example_world)) =
    (mkWorld
       (with_max_speed 1.0 (with_min_speed 0.2
          (with_target_temp 40.0 (this (fst (set_temp 50.0 example_world))))))
       (control example_world) (fan_calls example_world),
     Return tt) /\
  target_temp (this (fst (cmd_SET_DYNAMIC_FAN_TARGET
                            (mkTARGET_params None (Some 0.2) None)
                            (fst (set_temp 50.0 example_world))))) = 40.0 /\
  min_speed (this (fst (cmd_SET_DYNAMIC_FAN_TARGET
                          (mkTARGET_params None (Some 0.2) None)
                          (fst (set_temp 50.0 example_world))))) = 0.2 /\
  max_speed (this (fst (cmd_SET_DYNAMIC_FAN_TARGET
                          (mkTARGET_params None (Some 0.2) None)
                          (fst (set_temp 50.0 example_world))))) = 1.0.
Proof.
  apply (X7_target_command_applies (fst (set_temp 50.0 example_world))
           (mkTARGET_params None (Some 0.2) None)); reflexivity.
Defined.

(** X8.  [SET_DYNAMIC_FAN_TARGET] applies in order and does not undo: when
    the target and the minimum speed are acceptable and the maximum speed is
    above [1.0], the command raises the maximum-speed error with
    [target_temp] and [min_speed] already overwritten and [max_speed]
    unchanged. *)
Theorem X8_target_command_partial w gcmd :
  let temp := get_float (TARGET gcmd) (target_temp_conf (this w)) in
  let lo := requested_min_speed w gcmd in
  let hi := requested_max_speed w gcmd in
  (temp <=? max_temp (this w)) = true ->
  (0.0 <=? lo) = true -> (lo <=? 1.0) = true ->
  (1.0 <? hi) = true ->
  (lo <=? hi) = true ->
  cmd_SET_DYNAMIC_FAN_TARGET gcmd w =
    (mkWorld (with_min_speed lo (with_target_temp temp (this w)))
       (control w) (fan_calls w),
     Raise (CommandError
              "Requested max speed (%.1f) out of range (0.0 : 1.0)" [hi])) /\
  target_temp (this (fst (cmd_SET_DYNAMIC_FAN_TARGET gcmd w))) = temp /\
  min_speed (this (fst (cmd_SET_DYNAMIC_FAN_TARGET gcmd w))) = lo /\
  max_speed (this (fst (cmd_SET_DYNAMIC_FAN_TARGET gcmd w))) = max_speed (this w).
Proof.
  cbv zeta. unfold requested_min_speed, requested_max_speed.
  intros T L0 L1 H1 LH.
  match goal with
  | |- ?A = ?B /\ _ => assert (E : A = B)
  end.
  { unfold cmd_SET_DYNAMIC_FAN_TARGET. run_lookups.
    rewrite (set_temp_accepts_up_to_max_temp w _ T). cbn.
    unfold F64.gtb. rewrite (leb_ltb_swap _ _ LH).
    unfold set_min_speed, set_max_speed, F64.gtb, F64.truthy.
    rewrite (leb_ltb_swap _ _ L0), (leb_ltb_swap _ _ L1), andb_false_r.
    cbn. rewrite H1, (above_one_nonzero _ H1), orb_true_r.
    reflexivity. }
  split; [exact E|]. rewrite E. repeat split.
Qed.

Lemma X8_target_command_partial_witness :
  cmd_SET_DYNAMIC_FAN_TARGET (mkTARGET_params (Some 50.0) (Some 0.5) (Some 2.0))
    example_world =
    (mkWorld (with_min_speed 0.5 (with_target_temp 50.0 (this example_world)))
       (control example_world) (fan_calls example_world),
     Raise (CommandError
              "Requested max speed (%.1f) out of range (0.0 : 1.0)" [2.0])) /\
  target_temp (this (fst (cmd_SET_DYNAMIC_FAN_TARGET
                            (mkTARGET_params (Some 50.0) (Some 0.5) (Some 2.0))
                            example_world))) = 50.0 /\
  min_speed (this (fst (cmd_SET_DYNAMIC_FAN_TARGET
                          (mkTARGET_params (Some 50.0) (Some 0.5) (Some 2.0))
                          example_world))) = 0.5 /\
  max_speed (this (fst (cmd_SET_DYNAMIC_FAN_TARGET
                          (mkTARGET_params (Some 50.0) (Some 0.5) (Some 2.0))
                          example_world))) = 1.0.
Proof.
  apply (X8_target_command_partial example_world
           (mkTARGET_params (Some 50.0) (Some 0.5) (Some 2.0))); reflexivity.
Defined.

(** X9.  [SET_DYNAMIC_FAN_TEMPERATURE_LIMITS] cannot change the limits: when
    the target is acceptable and [MIN_TEMP <= MAX_TEMP] it has overwritten
    [target_temp] and then raises [AttributeError], because the class has no
    method [set_min_temp]; [min_temp] and [max_temp] are as before. *)
Theorem X9_limits_command_fails w gcmd :
  let temp := get_float (LIMITS_TARGET gcmd) (target_temp_conf (this w)) in
  let lo := get_float (MIN_TEMP gcmd) (min_temp (this w)) in
  let hi := get_float (MAX_TEMP gcmd) (max_temp (this w)) in
  (temp <=? max_temp (this w)) = true ->
  (lo <=? hi) = true ->
  cmd_SET_DYNAMIC_TEMPERATURE_LIMITS gcmd w =
    (mkWorld (with_target_temp temp (this w)) (control w) (fan_calls w),
     Raise (AttributeError "DynamicTemperatureFan" "set_min_temp")) /\
  target_temp (this (fst (cmd_SET_DYNAMIC_TEMPERATURE_LIMITS gcmd w))) = temp /\
  min_temp (this (fst (cmd_SET_DYNAMIC_TEMPERATURE_LIMITS gcmd w))) =
    min_temp (this w) /\
  max_temp (this (fst (cmd_SET_DYNAMIC_TEMPERATURE_LIMITS gcmd w))) =
    max_temp (this w).
Proof.
  cbv zeta. intros T LH.
  match goal with
  | |- ?A = ?B /\ _ => assert (E : A = B)
  end.
  { unfold cmd_SET_DYNAMIC_TEMPERATURE_LIMITS. run_lookups.
    rewrite (set_temp_accepts_up_to_max_temp w _ T). cbn.
    unfold F64.gtb. rewrite (leb_ltb_swap _ _ LH). reflexivity. }
  split; [exact E|]. rewrite E. repeat split.
Qed.

Lemma X9_limits_command_fails_witness :
  cmd_SET_DYNAMIC_TEMPERATURE_LIMITS
    (mkLIMITS_params (Some 45.0) (Some 10.0) (Some 80.0)) example_world =
    (mkWorld (with_target_temp 45.0 (this example_world))
       (control example_world) (fan_calls example_world),
     Raise (AttributeError "DynamicTemperatureFan" "set_min_temp")) /\
  target_temp (this (fst (cmd_SET_DYNAMIC_TEMPERATURE_LIMITS
                            (mkLIMITS_params (Some 45.0) (Some 10.0) (Some 80.0))
                            example_world))) = 45.0 /\
  min_temp (this (fst (cmd_SET_DYNAMIC_TEMPERATURE_LIMITS
                         (mkLIMITS_params (Some 45.0) (Some 10.0) (Some 80.0))
                         example_world))) = 20.0 /\
  max_temp (this (fst (cmd_SET_DYNAMIC_TEMPERATURE_LIMITS
                         (mkLIMITS_params (Some 45.0) (Some 10.0) (Some 80.0))
                         example_world))) = 60.0.
Proof.
  apply (X9_limits_command_fails example_world
           (mkLIMITS_params (Some 45.0) (Some 10.0) (Some 80.0))); reflexivity.
Defined.

(** X10.  [set_enable] on any integer: an argument below 0 or above 1 raises
    [NameError] (the error message formats the unbound name [speed]) and
    changes nothing; every other argument, 0 included, sets [enable] to
    [True].  No argument clears the flag or reaches the actuator. *)
Theorem X10_set_enable_cases w z :
  let r := set_enable z w in
  (if (z <? 0)%Z || (1 <? z)%Z
   then r = (w, Raise (NameError "speed"))
   else r = (mkWorld (with_enable true (this w)) (control w) (fan_calls w),
             Return tt)) /\
  fan_calls (fst r) = fan_calls w /\
  (enable (this w) = true -> enable (this (fst r)) = true) /\
  ((z <? 0)%Z || (1 <? z)%Z = false -> enable (this (fst r)) = true).
Proof.
  cbv zeta. unfold set_enable.
  destruct (Z.eqb_spec z 0), (Z.ltb_spec z 0), (Z.ltb_spec 1 z), (Z.leb_spec 0 z);
    cbn; try lia; repeat split; auto; discriminate.
Qed.

(** ** What the entry points leave alone *)

Lemma undisturbed_refl w : undisturbed w w.
Proof. unfold undisturbed. repeat split; auto. Qed.

Lemma undisturbed_trans w1 w2 w3 :
  undisturbed w1 w2 -> undisturbed w2 w3 -> undisturbed w1 w3.
Proof.
  unfold undisturbed.
  intros (A1 & A2 & A3 & A4 & A5 & A6 & A7 & A8 & A9 & A10)
         (B1 & B2 & B3 & B4 & B5 & B6 & B7 & B8 & B9 & B10).
  repeat split; try congruence. auto.
Qed.

Lemma set_temp_undisturbed w degrees : undisturbed w (fst (set_temp degrees w)).
Proof.
  rewrite set_temp_run.
  destruct (F64.truthy degrees && F64.gtb degrees (max_temp (this w)));
    unfold undisturbed; cbn; repeat split; auto.
Qed.

Lemma set_min_speed_undisturbed w speed :
  undisturbed w (fst (set_min_speed speed w)).
Proof.
  unfold set_min_speed.
  match goal with
  | |- context [if ?b then _ else _] => destruct b
  end; unfold undisturbed; cbn; repeat split; auto.
Qed.

Lemma set_max_speed_undisturbed w speed :
  undisturbed w (fst (set_max_speed speed w)).
Proof.
  unfold set_max_speed.
  match goal with
  | |- context [if ?b then _ else _] => destruct b
  end; unfold undisturbed; cbn; repeat split; auto.
Qed.

Lemma bind_undisturbed {A B} (m : M A) (k : A -> M B) w :
  undisturbed w (fst (m w)) ->
  (forall a w', undisturbed w' (fst (k a w'))) ->
  undisturbed w (fst (bind m k w)).
Proof.
  intros Hm Hk. unfold bind. destruct (m w) as [w' [a|e]]; cbn in *.
  - exact (undisturbed_trans _ _ _ Hm (Hk a w')).
  - exact Hm.
Qed.

Lemma enter_undisturbed c w : undisturbed w (fst (enter c w)).
Proof.
  destruct c as [read_time temp|eventtime|gcmd|gcmd|ENABLE]; cbn [enter].
  - unfold undisturbed; cbn; repeat split; auto.
  - unfold undisturbed; cbn; repeat split; auto.
  - unfold cmd_SET_DYNAMIC_FAN_TARGET.
    apply bind_undisturbed; [apply undisturbed_refl|]. intros d w1.
    apply bind_undisturbed; [apply set_temp_undisturbed|]. intros _ w2.
    apply bind_undisturbed; [apply undisturbed_refl|]. intros lo w3.
    apply bind_undisturbed; [apply undisturbed_refl|]. intros hi w4.
    match goal with
    | |- context [if ?b then _ else _] => destruct b
    end.
    + apply undisturbed_refl.
    + apply bind_undisturbed; [apply set_min_speed_undisturbed|]. intros _ w5.
      apply set_max_speed_undisturbed.
  - unfold cmd_SET_DYNAMIC_TEMPERATURE_LIMITS.
    apply bind_undisturbed; [apply undisturbed_refl|]. intros d w1.
    apply bind_undisturbed; [apply set_temp_undisturbed|]. intros _ w2.
    apply bind_undisturbed; [apply undisturbed_refl|]. intros lo w3.
    apply bind_undisturbed; [apply undisturbed_refl|]. intros hi w4.
    match goal with
    | |- context [if ?b then _ else _] => destruct b
    end; apply undisturbed_refl.
  - unfold cmd_SET_DYNAMIC_FAN_ENABLE.
    destruct ((ENABLE <? 0)%Z || (1 <? ENABLE)%Z); [apply undisturbed_refl|].
    destruct (set_enable_never_disables w ENABLE) as [E|E]; rewrite E;
      unfold undisturbed; cbn; repeat split; auto.
Qed.

Lemma run_undisturbed cs : forall w, undisturbed w (run cs w).
Proof.
  induction cs as [|c cs IH]; intros w; cbn [run].
  - apply undisturbed_refl.
  - exact (undisturbed_trans _ _ _ (enter_undisturbed c w) (IH _)).
Qed.

(** X11.  The entry points never drive the fan.  After any sequence of
    sensor samples, temperature queries and the three commands, from any
    state, the actuator has received no further command, the control object
    is as it was ([heating] never changes) and the rate limiter's
    [next_speed_time] and [last_speed_value] are untouched: on a freshly
    built controller the actuator is never called at all. *)
Theorem X11_entry_points_never_drive_the_fan cs w cfg :
  (fan_calls (run cs w) = fan_calls w /\
   control (run cs w) = control w /\
   next_speed_time (this (run cs w)) = next_speed_time (this w) /\
   last_speed_value (this (run cs w)) = last_speed_value (this w)) /\
  (fan_calls (run cs (DynamicTemperatureFan__init__ cfg)) = [] /\
   heating (control (run cs (DynamicTemperatureFan__init__ cfg))) = true).
Proof.
  split.
  - destruct (run_undisturbed cs w) as (A1 & A2 & A3 & A4 & _). auto.
  - destruct (run_undisturbed cs (DynamicTemperatureFan__init__ cfg))
      as (A1 & A2 & _).
    rewrite A1, A2. split; reflexivity.
Qed.

(** X12.  The entry points keep the configuration: after any sequence of
    calls [min_temp], [max_temp], [speed_delay], [ramp_down] and
    [target_temp_conf] have the values they started with, and an [enable]
    flag that was set is still set. *)
Theorem X12_entry_points_keep_configuration cs w :
  min_temp (this (run cs w)) = min_temp (this w) /\
  max_temp (this (run cs w)) = max_temp (this w) /\
  speed_delay (this (run cs w)) = speed_delay (this w) /\
  ramp_down (this (run cs w)) = ramp_down (this w) /\
  target_temp_conf (this (run cs w)) = target_temp_conf (this w) /\
  (enable (this w) = true -> enable (this (run cs w)) = true).
Proof.
  destruct (run_undisturbed cs w) as (_ & _ & _ & _ & A5 & A6 & A7 & A8 & A9 & A10).
  auto 10.
Qed.

(** ** The blocks of the control law, run on their own *)

(** X13.  The watermark block (lines 211-214) is a deadband on [heating]:
    it never raises and touches nothing but [heating]; a heating controller
    stops at a sample at or above [target + max_delta], an idle one starts
    at a sample at or below [target - max_delta], and a sample strictly
    between the two marks changes nothing. *)
Theorem X13_watermark_is_a_deadband w temp target_temp :
  let r := watermark temp target_temp w in
  snd r = Return tt /\
  this (fst r) = this w /\
  fan_calls (fst r) = fan_calls w /\
  max_delta (control (fst r)) = max_delta (control w) /\
  (heating (control w) = true ->
   F64.geb temp (target_temp + max_delta (control w)) = true ->
   heating (control (fst r)) = false) /\
  (heating (control w) = false ->
   (temp <=? target_temp - max_delta (control w)) = true ->
   heating (control (fst r)) = true) /\
  ((target_temp - max_delta (control w) <? temp) = true ->
   (temp <? target_temp + max_delta (control w)) = true ->
   fst r = w).
Proof.
  cbv zeta. rewrite watermark_run. unfold F64.geb. cbn [fst snd].
  split; [reflexivity|].
  split; [destruct (heating (control w)); split_ifs; reflexivity|].
  split; [destruct (heating (control w)); split_ifs; reflexivity|].
  split; [destruct (heating (control w)); split_ifs; reflexivity|].
  repeat split.
  - intros H1 H2. rewrite H1, H2. reflexivity.
  - intros H1 H2. rewrite H1, H2. reflexivity.
  - intros H1 H2.
    rewrite (ltb_leb_swap _ _ H1), (ltb_leb_swap _ _ H2).
    destruct (heating (control w)); reflexivity.
Qed.

(** X14.  The clamp of [calculate_fan_speed] (lines 119-122): when
    [min_speed <= max_speed], a speed that is a number comes out within
    [[min_speed, max_speed]], and unchanged if it was strictly inside; the
    block reads attributes only. *)
Theorem X14_clamp_target_speed_bounds w s :
  F64.is_num s = true ->
  (min_speed (this w) <=? max_speed (this w)) = true ->
  exists r,
    clamp_target_speed s w = (w, Return r) /\
    (min_speed (this w) <=? r) = true /\
    (r <=? max_speed (this w)) = true /\
    ((min_speed (this w) <? s) = true -> (s <? max_speed (this w)) = true ->
     r = s).
Proof.
  intros N LH. rewrite clamp_target_speed_run.
  pose proof (leb_num_l _ _ LH) as Nlo.
  pose proof (leb_num_r _ _ LH) as Nhi.
  eexists. split; [reflexivity|].
  destruct (s <=? min_speed (this w)) eqn:E1.
  - repeat split; auto.
    intros H _. rewrite (ltb_leb_swap _ _ H) in E1. discriminate.
  - destruct (max_speed (this w) <=? s) eqn:E2.
    + repeat split; auto.
      intros _ H. rewrite (ltb_leb_swap _ _ H) in E2. discriminate.
    + repeat split.
      * apply ltb_leb. apply not_leb_ltb; auto.
      * apply ltb_leb. apply not_leb_ltb; auto.
Qed.

Lemma X14_clamp_target_speed_bounds_witness :
  exists r,
    clamp_target_speed 0.9 example_world = (example_world, Return r) /\
    (min_speed (this example_world) <=? r) = true /\
    (r <=? max_speed (this example_world)) = true /\
    ((min_speed (this example_world) <? 0.9) = true ->
     (0.9 <? max_speed (this example_world)) = true ->
     r = 0.9).
Proof. apply (X14_clamp_target_speed_bounds example_world 0.9); reflexivity. Defined.

(** ** Samples, targets and refreshes *)

(** X15.  The sample is stored before the control law runs: although
    [temperature_callback] raises, a following [get_temp] returns the
    temperature just reported together with the current target. *)
Theorem X15_get_temp_after_sample w read_time temp eventtime :
  let w1 := fst (temperature_callback read_time temp w) in
  get_temp eventtime w1 = (w1, Return (temp, target_temp (this w))) /\
  (exists e, snd (temperature_callback read_time temp w) = Raise e).
Proof. cbv zeta. split; [reflexivity | eexists; reflexivity]. Qed.

(** A zero that lies above [m] puts [m] below [0.0]. *)
Lemma zero_above_negative x m :
  (x =? 0) = true -> (m <? x) = true -> (0 <=? m) = false.
Proof.
  rewrite eqb_spec, ltb_spec, leb_spec, Prim2SF_zero.
  destruct (Prim2SF x) as [sx|sx| |sx mx ex]; cbn; try discriminate;
    try (destruct sx; discriminate).
  intros _.
  destruct (Prim2SF m) as [s|s| |s mm e]; cbn; try discriminate;
    destruct s; try discriminate; reflexivity.
Qed.

(** X16.  [set_temp], the rejected case: with [max_temp >= 0.0], every
    target above [max_temp] raises the out-of-range command error and
    leaves all attributes unchanged; [0.0] itself is accepted whatever the
    limits are. *)
Theorem X16_set_temp_rejects_above_max w degrees :
  (set_temp 0.0 w =
     (mkWorld (with_target_temp 0.0 (this w)) (control w) (fan_calls w),
      Return tt) /\
   target_temp (this (fst (set_temp 0.0 w))) = 0.0) /\
  ((0.0 <=? max_temp (this w)) = true ->
   (max_temp (this w) <? degrees) = true ->
   set_temp degrees w =
     (w, Raise (CommandError
                  "Requested temperature (%.1f) out of range (%.1f:%.1f)"
                  [degrees; min_temp (this w); max_temp (this w)]))).
Proof.
  split.
  - rewrite set_temp_run. split; reflexivity.
  - intros P G. rewrite set_temp_run. unfold F64.gtb, F64.truthy.
    rewrite G.
    destruct (degrees =? 0) eqn:Z.
    + rewrite (zero_above_negative _ _ Z G) in P. discriminate.
    + reflexivity.
Qed.

Lemma X16_set_temp_rejects_above_max_witness :
  set_temp 61.0 example_world =
    (example_world,
     Raise (CommandError
              "Requested temperature (%.1f) out of range (%.1f:%.1f)"
              [61.0; min_temp (this example_world); max_temp (this example_world)])) /\
  (max_temp (this example_world_freezer) <? 0.0) = true /\
  snd (set_temp 0.0 example_world_freezer) = Return tt /\
  target_temp (this (fst (set_temp 0.0 example_world_freezer))) = 0.0.
Proof.
  split; [|split; [reflexivity|split; [reflexivity|]]].
  - apply (proj2 (X16_set_temp_rejects_above_max example_world 61.0)); reflexivity.
  - exact (proj2 (proj1 (X16_set_temp_rejects_above_max example_world_freezer 0.0))).
Defined.

(** X17.  Refresh: once the hold window has passed
    ([read_time < next_speed_time] is false) and the last speed sent is not
    zero, [set_speed] forwards every request, an unchanged one included,
    and opens a new hold window. *)
Theorem X17_refresh_after_hold_window w read_time value :
  (read_time <? next_speed_time (this w)) = false ->
  (last_speed_value (this w) =? 0.0) = false ->
  set_speed read_time value w =
    (forwarded w read_time (clamped (this w) value), Return tt) /\
  next_speed_time (this (fst (set_speed read_time value w))) =
    read_time + speed_delay (this w) + 0.75 * 5.0 /\
  last_speed_value (this (fst (set_speed read_time value w))) =
    clamped (this w) value /\
  fan_calls (fst (set_speed read_time value w)) =
    (fan_calls w ++ [(read_time + speed_delay (this w), clamped (this w) value)])%list.
Proof.
  intros H Z.
  assert (E : set_speed read_time value w =
              (forwarded w read_time (clamped (this w) value), Return tt)).
  { rewrite set_speed_run. unfold suppressed, F64.truthy.
    rewrite H, Z. reflexivity. }
  split; [exact E|]. rewrite E.
  exact (forwarded_attributes w read_time (clamped (this w) value)).
Qed.

Lemma X17_refresh_after_hold_window_witness :
  set_speed 5.0 0.7 example_world_running =
    (forwarded example_world_running 5.0 0.7, Return tt) /\
  next_speed_time (this (fst (set_speed 5.0 0.7 example_world_running))) = 9.75 /\
  last_speed_value (this (fst (set_speed 5.0 0.7 example_world_running))) = 0.7 /\
  fan_calls (fst (set_speed 5.0 0.7 example_world_running)) =
    [(1.0, 0.7); (6.0, 0.7)].
Proof.
  exact (X17_refresh_after_hold_window example_world_running 5.0 0.7
           eq_refl eq_refl).
Defined.

(** X18.  A significant change is never held back: when the clamped value
    is not within [0.05] of [last_speed_value], [set_speed] forwards it at
    once, inside the hold window or not. *)
Theorem X18_significant_change_is_forwarded w read_time value :
  (abs (clamped (this w) value - last_speed_value (this w)) <? 0.05) = false ->
  set_speed read_time value w =
    (forwarded w read_time (clamped (this w) value), Return tt) /\
  next_speed_time (this (fst (set_speed read_time value w))) =
    read_time + speed_delay (this w) + 0.75 * 5.0 /\
  last_speed_value (this (fst (set_speed read_time value w))) =
    clamped (this w) value /\
  fan_calls (fst (set_speed read_time value w)) =
    (fan_calls w ++ [(read_time + speed_delay (this w), clamped (this w) value)])%list.
Proof.
  intros S.
  assert (E : set_speed read_time value w =
              (forwarded w read_time (clamped (this w) value), Return tt)).
  { rewrite set_speed_run. unfold suppressed.
    rewrite S, andb_false_r. reflexivity. }
  split; [exact E|]. rewrite E.
  exact (forwarded_attributes w read_time (clamped (this w) value)).
Qed.

Lemma X18_significant_change_is_forwarded_witness :
  (2.0 <? next_speed_time (this example_world_running)) = true /\
  set_speed 2.0 0.0 example_world_running =
    (forwarded example_world_running 2.0 0.0, Return tt) /\
  next_speed_time (this (fst (set_speed 2.0 0.0 example_world_running))) = 6.75 /\
  last_speed_value (this (fst (set_speed 2.0 0.0 example_world_running))) = 0.0 /\
  fan_calls (fst (set_speed 2.0 0.0 example_world_running)) =
    [(1.0, 0.7); (3.0, 0.0)].
Proof.
  split; [reflexivity|].
  exact (X18_significant_change_is_forwarded example_world_running 2.0 0.0
           eq_refl).
Defined.
